(** * Account-activity scripts: GitHub utilities and the Asana notebook

    A shallow embedding of [tutorial_github/utils.py], of the statistics
    cells of [tutorial_asana/tutorial_asana.py] and of
    [DATA605/project_description.py], with the properties their design
    document states about them and further properties of the code.

    Python code that raises, logs, prints, reads the process environment or
    talks to a remote service is written in one small monad: a computation
    takes the [World] it runs in and gives back either the exception it
    raised or its value, together with the world it leaves behind. *)

From Stdlib Require Import ZArith String List Lia.
From stdpp Require Import base option list gmap strings pretty.

Local Open Scope string_scope.
Local Open Scope Z_scope.

(** ** The world a script runs in *)

(** One record handed to [logging]: the level and the formatted message. *)
Inductive Level := ERROR | WARNING | INFO.

Record LogRecord := mkLog { level : Level; message : string }.

(** What [print] was given.  The text layout of numbers and of data frames
    is pandas' and Python's business; [stdout] keeps the printed values. *)
Inductive Printed :=
| Text (s : string)
| Num (n : nat)
| Table (header : list string) (body : gmap string nat).

Record World := mkWorld {
  environ : gmap string string;      (* os.environ *)
  requests : list string;            (* calls sent to a remote service, oldest first *)
  logged : list LogRecord;           (* records emitted through _LOG *)
  stdout : list (list Printed);      (* one entry per print call *)
}.

Definition sent (r : string) (w : World) : World :=
  mkWorld (environ w) (requests w ++ [r]) (logged w) (stdout w).

Definition emitted (r : LogRecord) (w : World) : World :=
  mkWorld (environ w) (requests w) (logged w ++ [r]) (stdout w).

Definition printed (args : list Printed) (w : World) : World :=
  mkWorld (environ w) (requests w) (logged w) (stdout w ++ [args]).

(** ** Computations that may raise *)

Definition M (E A : Type) : Type := World → (E + A) * World.

Definition run {E A} (c : M E A) (w : World) : (E + A) * World := c w.

Definition outcome {E A} (c : M E A) (w : World) : E + A := (run c w).1.

Definition after {E A} (c : M E A) (w : World) : World := (run c w).2.

Definition raise {E A} (e : E) : M E A := λ w, (inl e, w).

Definition M_ret {E A} (a : A) : M E A := λ w, (inr a, w).

Definition M_bind {E A B} (k : A → M E B) (c : M E A) : M E B :=
  λ w, match c w with
       | (inl e, w') => (inl e, w')
       | (inr a, w') => k a w'
       end.

#[global] Instance M_mret {E} : MRet (M E) := @M_ret E.
#[global] Instance M_mbind {E} : MBind (M E) := @M_bind E.

(** [try: body except: handler]: the handler runs in the world the body
    left, so whatever the body sent or logged before raising stays. *)
Definition try_except {E A} (body : M E A) (handler : E → M E A) : M E A :=
  λ w, match body w with
       | (inl e, w') => handler e w'
       | (inr a, w') => (inr a, w')
       end.

(** [for x in xs: acc = body x acc] *)
Fixpoint for_in {E X S} (xs : list X) (body : X → S → M E S) (acc : S) : M E S :=
  match xs with
  | [] => mret acc
  | x :: rest => acc' ← body x acc; for_in rest body acc'
  end.

Definition getenv {E} (name : string) : M E (option string) :=
  λ w, (inr (environ w !! name), w).

Definition log_error {E} (msg : string) : M E unit :=
  λ w, (inr tt, emitted (mkLog ERROR msg) w).

Definition print {E} (args : list Printed) : M E unit :=
  λ w, (inr tt, printed args w).

(** Python truthiness of an [Optional[str]]: [None] and [""] are falsy. *)
Definition truthy (o : option string) : bool :=
  match o with
  | Some s => negb (String.eqb s "")
  | None => false
  end.

(** ** tutorial_github/utils.py *)

Module GitHub.

(** Exceptions PyGithub raises (404 unknown object, 403 rate limit,
    401 bad credentials, ...): all are subclasses of [Exception]. *)
Record GithubException := mkGithubException { status : Z; data : string }.

Inductive PyExc :=
| ValueError (msg : string)
| Github_exc (e : GithubException).

Definition str_exc (e : PyExc) : string :=
  match e with
  | ValueError msg => msg
  | Github_exc g => pretty (status g) +:+ " " +:+ data g
  end.

Record NamedUser := mkNamedUser { login : string }.
Record Repository := mkRepository { full_name : string; name : string }.
Record Owner := mkOwner { owner_login : string; is_organization : bool }.

(** What the remote answers.  Iterating a PyGithub paginated list sends the
    page requests, so a listing answers with the whole list or raises. *)
Record Service := mkService {
  organization : string → GithubException + Owner;
  user : string → GithubException + Owner;
  repo : string → GithubException + Repository;
  repos_of : Owner → GithubException + list Repository;
  contributors_of : Repository → GithubException + list NamedUser;
}.

Inductive Auth := Token (token : string).

Record Github := mkGithub { base_url : string; auth : Auth }.

Definition DEFAULT_BASE_URL : string := "https://api.github.com".

(** [Github(base_url=..., auth=...)]; [base_url] defaults to the public API. *)
Definition Github_new (url : option string) (a : Auth) : Github :=
  mkGithub (default DEFAULT_BASE_URL url) a.

Record GitHubAPI := mkGitHubAPI { access_token : string; github : Github }.

Definition get_client (self : GitHubAPI) : Github := github self.

Section Remote.

Variable service : Service.

(** One call through the client: the request goes out, then the answer
    comes back as a value or as a raised exception. *)
Definition request {A} (r : string) (answer : GithubException + A) : M PyExc A :=
  λ w, (match answer with
        | inl e => inl (Github_exc e)
        | inr a => inr a
        end, sent r w).

Definition get_organization (client : Github) (n : string) : M PyExc Owner :=
  request ("GET /orgs/" +:+ n) (organization service n).

Definition get_user (client : Github) (n : string) : M PyExc Owner :=
  request ("GET /users/" +:+ n) (user service n).

Definition get_repo (client : Github) (n : string) : M PyExc Repository :=
  request ("GET /repos/" +:+ n) (repo service n).

Definition get_repos (o : Owner) : M PyExc (list Repository) :=
  request ("GET " +:+ owner_login o +:+ "/repos") (repos_of service o).

Definition get_contributors (r : Repository) : M PyExc (list NamedUser) :=
  request ("GET /repos/" +:+ full_name r +:+ "/contributors") (contributors_of service r).

(** [GitHubAPI.__init__]:
<<
    self.access_token = access_token or os.getenv("GITHUB_ACCESS_TOKEN")
    if not self.access_token:
        raise ValueError(...)
    auth = Auth.Token(self.access_token)
    self.github = Github(base_url=base_url, auth=auth) if base_url else Github(auth=auth)
>> *)
Definition TOKEN_REQUIRED : string :=
  "GitHub Access Token is required. Set it as an environment variable or pass it explicitly.".

Definition GitHubAPI_init (access_token base_url : option string) : M PyExc GitHubAPI :=
  tok ← (if truthy access_token then mret access_token
         else getenv "GITHUB_ACCESS_TOKEN");
  if negb (truthy tok) then raise (ValueError TOKEN_REQUIRED)
  else
    let a := Token (default "" tok) in
    mret (mkGitHubAPI (default "" tok)
            (if truthy base_url then Github_new base_url a else Github_new None a)).

(** The values of the dictionary [get_repo_names] returns. *)
Inductive Json :=
| JStr (s : string)
| JList (l : list string).

(** [get_repo_names]: organization first, then user, both under a bare
    [except]; the listing of repositories is outside the [try]. *)
Definition get_repo_names (client : Github) (org_or_user_name : string)
  : M PyExc (gmap string Json) :=
  owner ← try_except (get_organization client org_or_user_name)
            (λ _, try_except (get_user client org_or_user_name)
                    (λ _, raise (ValueError
                       ("'" +:+ org_or_user_name +:+
                        "' is neither a valid GitHub user nor organization."))));
  listed ← get_repos owner;
  let repos := name <$> listed in
  let result : gmap string Json :=
    <["repositories" := JList repos]> (<["owner" := JStr org_or_user_name]> ∅) in
  mret result.

(** [get_github_contributors]: one [try] per repository name; on any
    exception the error is logged and the name is given the empty list. *)
Definition contributors_message (repo_name : string) (e : PyExc) : string :=
  "Error fetching contributors for " +:+ repo_name +:+ ": " +:+ str_exc e.

Definition contributors_body (client : Github) (repo_name : string)
    (result : gmap string (list string)) : M PyExc (gmap string (list string)) :=
  try_except
    (repo ← get_repo client repo_name;
     listed ← get_contributors repo;
     let contributors := login <$> listed in
     mret (<[repo_name := contributors]> result))
    (λ e,
       log_error (contributors_message repo_name e);;
       mret (<[repo_name := []]> result)).

Definition get_github_contributors (client : Github) (repo_names : list string)
  : M PyExc (gmap string (list string)) :=
  for_in repo_names (contributors_body client) ∅.

(** The owner a name resolves to: the organization of that name, and
    failing that the user of that name. *)
Definition resolve (n : string) : option Owner :=
  match organization service n with
  | inr o => Some o
  | inl _ =>
      match user service n with
      | inr o => Some o
      | inl _ => None
      end
  end.

(** What the remote holds for one repository name: the logins of its
    contributors, or the exception its lookup or its listing raises. *)
Definition contributors_answer (n : string) : GithubException + list string :=
  match repo service n with
  | inl e => inl e
  | inr r =>
      match contributors_of service r with
      | inl e => inl e
      | inr listed => inr (login <$> listed)
      end
  end.

(** What one turn of the loop of [get_github_contributors] stores under a
    name, and what it logs. *)
Definition contributors_entry (n : string) : list string :=
  match contributors_answer n with
  | inr logins => logins
  | inl _ => []
  end.

Definition contributors_failure (n : string) : list LogRecord :=
  match contributors_answer n with
  | inr _ => []
  | inl e => [mkLog ERROR (contributors_message n (Github_exc e))]
  end.

End Remote.









End GitHub.

(** ** tutorial_asana/tutorial_asana.py: the statistics cells *)

Module Asana.

Inductive PyExc := KeyError (msg : string).

(** A pandas frame as the cells use it: the column labels and the rows; a
    row maps a label to its cell, and a missing entry is an NA cell
    ([None]/[NaN]). *)
Record DataFrame := mkDataFrame {
  columns : list string;
  rows : list (gmap string string);
}.

(** [df.empty]: no column or no row. *)
Definition empty (df : DataFrame) : bool :=
  bool_decide (columns df = []) || bool_decide (rows df = []).

(** [len(df)] *)
Definition len (df : DataFrame) : nat := length (rows df).

(** One row of [df.groupby(key)[col].count()]: a row whose key cell is NA is
    in no group (pandas' default [dropna=True]); [count] counts the non-NA
    cells of [col] in the group. *)
Definition tally (key col : string) (acc : gmap string nat) (r : gmap string string)
  : gmap string nat :=
  match r !! key with
  | None => acc
  | Some k =>
      <[k := (default 0 (acc !! k) + (if r !! col is Some _ then 1 else 0))%nat]> acc
  end.

Definition groupby_count (key col : string) (df : DataFrame) : M PyExc (gmap string nat) :=
  if bool_decide (key ∈ columns df) then
    if bool_decide (col ∈ columns df) then mret (foldl (tally key col) ∅ (rows df))
    else raise (KeyError ("Column not found: " +:+ col))
  else raise (KeyError key).

(** The cell "Computing Statistics":
<<
    num_created_tasks = len(created_tasks_df)
    ...
    print("Number of tasks created in the period:", num_created_tasks)
>> *)
Definition computing_statistics
    (created_tasks_df completed_tasks_df
     created_tasks_comments_df completed_tasks_comments_df : DataFrame)
  : M PyExc (nat * nat * nat * nat) :=
  let num_created_tasks := len created_tasks_df in
  let num_completed_tasks := len completed_tasks_df in
  let num_comments_on_created := len created_tasks_comments_df in
  let num_comments_on_completed := len completed_tasks_comments_df in
  print [Text "Number of tasks created in the period:"; Num num_created_tasks];;
  print [Text "Number of tasks completed in the period:"; Num num_completed_tasks];;
  print [Text "Number of comments on created tasks:"; Num num_comments_on_created];;
  print [Text "Number of comments on completed tasks:"; Num num_comments_on_completed];;
  mret (num_created_tasks, num_completed_tasks,
        num_comments_on_created, num_comments_on_completed).

(** The cell "Statistics for All Users".  Its value here is the binding of
    [tasks_created_by_user] the cell leaves: the per-assignee counts, or
    nothing when the guard sends it to the [else] branch.
<<
    if not created_tasks_df.empty and "assignee" in created_tasks_df.columns:
        tasks_created_by_user = created_tasks_df.groupby("assignee")["task_id"].count().reset_index()
        tasks_created_by_user.columns = ["assignee", "tasks_created_count"]
        print("Tasks Created by User:")
        print(tasks_created_by_user)
    else:
        print("No tasks created or 'assignee' information not available.")
>> *)
Definition NO_TASKS : string :=
  "No tasks created or 'assignee' information not available.".

Definition tasks_created_by_user (created_tasks_df : DataFrame)
  : M PyExc (option (gmap string nat)) :=
  if negb (empty created_tasks_df)
     && bool_decide ("assignee" ∈ columns created_tasks_df)
  then
    counts ← groupby_count "assignee" "task_id" created_tasks_df;
    print [Text "Tasks Created by User:"];;
    print [Table ["assignee"; "tasks_created_count"] counts];;
    mret (Some counts)
  else
    print [Text NO_TASKS];;
    mret None.

(** The rows of a group and what [count] makes of them: whether some row
    has the key [k], and how many rows with the key [k] have a cell under
    [col]. *)
Definition has_key (key k : string) (rs : list (gmap string string)) : bool :=
  existsb (λ r, bool_decide (r !! key = Some k)) rs.

Definition counted (key col k : string) (rs : list (gmap string string)) : nat :=
  length (List.filter
            (λ r, bool_decide (r !! key = Some k) && bool_decide (is_Some (r !! col)))
            rs).

(** The tasks nobody is assigned to. *)
Definition unassigned (rs : list (gmap string string)) : list (gmap string string) :=
  List.filter (λ r, bool_decide (r !! "assignee" = None)) rs.


(** [df[col].tolist()]: the cells of one column, row by row; a label that is
    not a column raises [KeyError]. *)
Definition column_tolist (col : string) (df : DataFrame)
  : M PyExc (list (option string)) :=
  if bool_decide (col ∈ columns df) then mret ((λ r, r !! col) <$> rows df)
  else raise (KeyError col).

(** The cell "Fetching Comments" takes the ids it asks comments for from the
    task frame:
<<
    created_task_ids = created_tasks_df["task_id"].tolist() if not created_tasks_df.empty else []
>> *)
Definition created_task_ids (created_tasks_df : DataFrame)
  : M PyExc (list (option string)) :=
  if negb (empty created_tasks_df) then column_tolist "task_id" created_tasks_df
  else mret [].

(** The sum of the counts of a grouping. *)
Definition total (counts : gmap string nat) : nat :=
  map_fold (λ _ n acc, (n + acc)%nat) 0%nat counts.

End Asana.


(** ** DATA605/project_description.py *)

Module ProjectDescription.

Import Asana.

(** The exceptions of the script: a label that is not a column, a file that
    cannot be opened for writing, and whatever the completion helper
    raises. *)
Inductive PyExc :=
| KeyError (label : string)
| OSError (path : string)
| CompletionError (msg : string).

Definition MARKDOWN_FILE_PATH : string := "DATA605_Projects.md".

Definition MODEL : string := "gpt-4o-mini".

(** The newline of the Python literals. *)
Definition nl : string := String (Ascii.ascii_of_nat 10) "".

(** What the script acts on: the text of the files, and the prompts sent to
    the completion helper so far, oldest first. *)
Record Machine := mkMachine {
  disk : gmap string string;
  asked : list (string * string);
}.

(** [md_file.write(text)] on the file opened at [path]. *)
Definition write (path text : string) (m : Machine) : Machine :=
  mkMachine (<[path := default "" (disk m !! path) +:+ text]> (disk m)) (asked m).

(** [open(path, "w")]: the file is created or cut to nothing. *)
Definition truncate (path : string) (m : Machine) : Machine :=
  mkMachine (<[path := ""]> (disk m)) (asked m).

(** [row[label]] for a row of [df.iterrows()]: [KeyError] for a label that
    is not a column; an NA cell is pandas' [nan], which an f-string prints
    as nan. *)
Definition getitem (df : DataFrame) (row : gmap string string) (label : string)
  : PyExc + string :=
  if bool_decide (label ∈ columns df) then inr (default "nan" (row !! label))
  else inl (KeyError label).

Section Helpers.

(** [helpers.hopenai.get_completion(prompt, model=...)] is not part of these
    sources: the answer it gives to a prompt, or the exception it raises. *)
Variable get_completion : string → string → PyExc + string.

(** Whether [open(path, "w")] succeeds. *)
Variable openable : string → bool.

Definition prompt_for (project_name difficulty : string) : string :=
  "Generate a project description for '" +:+ project_name +:+
  "' with difficulty level '" +:+ difficulty +:+ "'.".

(** [generate_project_description] *)
Definition generate_project_description (project_name difficulty : string)
    (m : Machine) : (PyExc + string) * Machine :=
  let prompt := prompt_for project_name difficulty in
  (get_completion prompt MODEL,
   mkMachine (disk m) (asked m ++ [(prompt, MODEL)])).

(** The loop of [create_markdown_file] over [df.iterrows()]. *)
Fixpoint write_rows (df : DataFrame) (path : string)
    (todo : list (gmap string string)) (m : Machine) : (PyExc + unit) * Machine :=
  match todo with
  | [] => (inr tt, m)
  | row :: rest =>
      match getitem df row "Project Name" with
      | inl e => (inl e, m)
      | inr project_name =>
          match getitem df row "Difficulty" with
          | inl e => (inl e, m)
          | inr difficulty =>
              match generate_project_description project_name difficulty m with
              | (inl e, m1) => (inl e, m1)
              | (inr description, m1) =>
                  let m2 := write path ("## " +:+ project_name +:+ nl) m1 in
                  let m3 := write path ("**Difficulty:** " +:+ difficulty +:+ nl +:+ nl) m2 in
                  let m4 := write path (description +:+ nl +:+ nl) m3 in
                  write_rows df path rest m4
              end
          end
      end
  end.

(** [create_markdown_file]: what was written before an exception stays in
    the file, which the [with] block closes on the way out. *)
Definition create_markdown_file (df : DataFrame) (markdown_file_path : string)
    (m : Machine) : (PyExc + unit) * Machine :=
  if openable markdown_file_path then
    let m0 := truncate markdown_file_path m in
    let m1 := write markdown_file_path ("# DATA605 Projects" +:+ nl +:+ nl) m0 in
    write_rows df markdown_file_path (rows df) m1
  else (inl (OSError markdown_file_path), m).

(** The text of one project, and the text of the projects up to the first
    one whose description cannot be had. *)
Definition cell (row : gmap string string) (label : string) : string :=
  default "nan" (row !! label).

Definition HEADER : string := "# DATA605 Projects" +:+ nl +:+ nl.

Definition section_text (project_name difficulty description : string) : string :=
  ("## " +:+ project_name +:+ nl)
  +:+ ("**Difficulty:** " +:+ difficulty +:+ nl +:+ nl)
  +:+ (description +:+ nl +:+ nl).

Definition described (row : gmap string string) : PyExc + string :=
  get_completion (prompt_for (cell row "Project Name") (cell row "Difficulty")) MODEL.

Definition section_of (row : gmap string string) (description : string) : string :=
  section_text (cell row "Project Name") (cell row "Difficulty") description.

Definition prompt_of (row : gmap string string) : string * string :=
  (prompt_for (cell row "Project Name") (cell row "Difficulty"), MODEL).

End Helpers.

(** The text of the rows whose descriptions are [ds]. *)
Definition sections (done : list (gmap string string)) (ds : list string) : string :=
  foldr String.append "" (zip_with section_of done ds).

End ProjectDescription.
(** ** Sample worlds, services and frames *)

Module Samples.

Definition world_with_token : World :=
  mkWorld {["GITHUB_ACCESS_TOKEN" := "ghp_example"]} [] [] [].

Definition quiet_world : World := mkWorld ∅ [] [] [].

Definition not_found : GitHub.GithubException :=
  GitHub.mkGithubException 404 "Not Found".

Definition rate_limited : GitHub.GithubException :=
  GitHub.mkGithubException 403 "API rate limit exceeded".

(** A remote with the organization acme and its repositories; the
    repository acme/gone has been deleted. *)
Definition acme_service : GitHub.Service :=
  GitHub.mkService
    (λ n, if String.eqb n "acme" then inr (GitHub.mkOwner "acme" true)
          else inl not_found)
    (λ n, if String.eqb n "octocat" then inr (GitHub.mkOwner "octocat" false)
          else inl not_found)
    (λ n, if String.eqb n "acme/gone" then inl not_found
          else inr (GitHub.mkRepository n n))
    (λ o, inr [GitHub.mkRepository "acme/api" "api";
               GitHub.mkRepository "acme/web" "web"])
    (λ r, inr [GitHub.mkNamedUser ("dev-" +:+ GitHub.name r)]).

(** The same remote once the rate limit is reached while the repositories
    of an owner are listed. *)
Definition throttled_service : GitHub.Service :=
  GitHub.mkService
    (GitHub.organization acme_service)
    (GitHub.user acme_service)
    (GitHub.repo acme_service)
    (λ o, inl rate_limited)
    (GitHub.contributors_of acme_service).

Definition sample_client : GitHub.Github :=
  GitHub.Github_new None (GitHub.Token "ghp_example").

Definition TASK_COLUMNS : list string :=
  ["task_id"; "name"; "assignee"; "created_at"; "completed_at"].

(** Two tasks of alice and one task without an assignee. *)
Definition three_tasks : Asana.DataFrame :=
  Asana.mkDataFrame TASK_COLUMNS
    [ {["task_id" := "1"; "name" := "write"; "assignee" := "alice"]};
      {["task_id" := "2"; "name" := "review"]};
      {["task_id" := "3"; "name" := "ship"; "assignee" := "alice"]} ].

(** A period without tasks. *)
Definition no_tasks : Asana.DataFrame := Asana.mkDataFrame TASK_COLUMNS [].

Definition no_comments : Asana.DataFrame :=
  Asana.mkDataFrame
    ["task_id"; "comment_text"; "comment_author"; "comment_created_at"] [].

(** The remote where the repository acme/gone still exists and nobody has
    contributed to it. *)
Definition empty_repo_service : GitHub.Service :=
  GitHub.mkService
    (GitHub.organization acme_service)
    (GitHub.user acme_service)
    (λ n, inr (GitHub.mkRepository n n))
    (GitHub.repos_of acme_service)
    (λ r, if String.eqb (GitHub.full_name r) "acme/gone" then inr []
          else GitHub.contributors_of acme_service r).

Definition five_repositories : list string :=
  ["acme/api"; "acme/web"; "acme/gone"; "acme/docs"; "acme/cli"].



(** A sheet of three projects, and a completion helper that answers for
    the first two and fails on the hard one. *)
Definition project_sheet : Asana.DataFrame :=
  Asana.mkDataFrame ["Project Name"; "Difficulty"]
    [ {["Project Name" := "Redis cache"; "Difficulty" := "easy"]};
      {["Project Name" := "Spark ETL"; "Difficulty" := "medium"]};
      {["Project Name" := "Kafka mesh"; "Difficulty" := "hard"]} ].

Definition easy_sheet : Asana.DataFrame :=
  Asana.mkDataFrame ["Project Name"; "Difficulty"]
    [ {["Project Name" := "Redis cache"; "Difficulty" := "easy"]};
      {["Project Name" := "Spark ETL"; "Difficulty" := "medium"]} ].

Definition unlabelled_sheet : Asana.DataFrame :=
  Asana.mkDataFrame ["Project Name"]
    [ {["Project Name" := "Redis cache"]} ].

Definition moody_helper (prompt model : string)
  : ProjectDescription.PyExc + string :=
  if String.eqb prompt
       (ProjectDescription.prompt_for "Kafka mesh" "hard")
  then inl (ProjectDescription.CompletionError "rate limit")
  else inr "A project.".

Definition any_path (path : string) : bool := true.

Definition old_disk : ProjectDescription.Machine :=
  ProjectDescription.mkMachine
    {[ProjectDescription.MARKDOWN_FILE_PATH := "last year's projects";
      "notes.txt" := "keep"]} [].

End Samples.

(** * Properties *)

(** ** Running computations *)

Section Running.

Context {E : Type}.

Lemma run_ret {A} (a : A) w : run (mret a : M E A) w = (inr a, w).
Proof. reflexivity. Qed.

Lemma run_raise {A} (e : E) w : run (raise e : M E A) w = (inl e, w).
Proof. reflexivity. Qed.

Lemma run_bind {A B} (c : M E A) (k : A → M E B) w :
  run (c ≫= k) w =
  match run c w with
  | (inl e, w') => (inl e, w')
  | (inr a, w') => run (k a) w'
  end.
Proof. reflexivity. Qed.

Lemma run_bind_value {A B} (c : M E A) (k : A → M E B) w a w' :
  run c w = (inr a, w') → run (c ≫= k) w = run (k a) w'.
Proof. intros Hc. rewrite run_bind, Hc. reflexivity. Qed.

Lemma run_bind_raised {A B} (c : M E A) (k : A → M E B) w e w' :
  run c w = (inl e, w') → run (c ≫= k) w = (inl e, w').
Proof. intros Hc. rewrite run_bind, Hc. reflexivity. Qed.

Lemma run_try_value {A} (body : M E A) handler w a w' :
  run body w = (inr a, w') → run (try_except body handler) w = (inr a, w').
Proof. unfold run, try_except. intros ->. reflexivity. Qed.

Lemma run_try_raised {A} (body : M E A) handler w e w' :
  run body w = (inl e, w') → run (try_except body handler) w = run (handler e) w'.
Proof. unfold run, try_except. intros ->. reflexivity. Qed.

Lemma run_for_in_nil {X S} (body : X → S → M E S) acc w :
  run (for_in [] body acc) w = (inr acc, w).
Proof. reflexivity. Qed.

Lemma run_for_in_cons {X S} (body : X → S → M E S) x xs acc w :
  run (for_in (x :: xs) body acc) w =
  match run (body x acc) w with
  | (inl e, w') => (inl e, w')
  | (inr acc', w') => run (for_in xs body acc') w'
  end.
Proof. reflexivity. Qed.

End Running.

Lemma truthy_true (o : option string) :
  truthy o = true ↔ ∃ s, o = Some s ∧ s ≠ "".
Proof.
  destruct o as [s|]; simpl.
  - rewrite negb_true_iff, String.eqb_neq. split.
    + intros Hs. exists s. split; [reflexivity | exact Hs].
    + intros (s' & Hs' & Hne). congruence.
  - split; [discriminate | intros (s & Hs & _); discriminate].
Qed.

Lemma truthy_false (o : option string) :
  truthy o = false ↔ o = None ∨ o = Some "".
Proof.
  destruct o as [s|]; simpl.
  - rewrite negb_false_iff, String.eqb_eq. split.
    + intros ->. right. reflexivity.
    + intros [Hn | Hs]; congruence.
  - split; [intros _; left; reflexivity | reflexivity].
Qed.

(** ** The GitHub client and the utility functions *)

Module GitHubProps.

Import GitHub Samples.

(** The constructor in its two cases, as equations on [run]. *)
Lemma GitHubAPI_init_run (token url : option string) (w : World) :
  let tok := if truthy token then token else environ w !! "GITHUB_ACCESS_TOKEN" in
  run (GitHubAPI_init token url) w =
  (if truthy tok
   then inr (mkGitHubAPI (default "" tok)
               (mkGithub (if truthy url then default DEFAULT_BASE_URL url
                          else DEFAULT_BASE_URL)
                  (Token (default "" tok))))
   else inl (ValueError TOKEN_REQUIRED), w).
Proof.
  unfold GitHubAPI_init. rewrite run_bind.
  destruct (truthy token) eqn:Htoken; simpl.
  - rewrite Htoken. simpl. destruct (truthy url); reflexivity.
  - unfold getenv, run. simpl.
    destruct (truthy (environ w !! "GITHUB_ACCESS_TOKEN")); simpl;
      [destruct (truthy url) |]; reflexivity.
Qed.

Lemma GitHubAPI_init_world (token url : option string) (w : World) :
  after (GitHubAPI_init token url) w = w.
Proof. unfold after. rewrite GitHubAPI_init_run. reflexivity. Qed.

(** C10.  Constructing [GitHubAPI] without a usable explicit token falls
    back to the environment variable GITHUB_ACCESS_TOKEN: a non-empty
    explicit token is the one the client is built with whatever the
    environment holds, an empty or missing one is replaced by a non-empty
    environment value, and the constructor raises if and only if both the
    explicit token and the environment variable are empty or unset. *)
Theorem GitHubAPI_init_token_fallback (token url : option string) (w : World) :
  let env := environ w !! "GITHUB_ACCESS_TOKEN" in
  let made := outcome (GitHubAPI_init token url) w in
  (truthy token = true →
     ∃ api, made = inr api ∧ token = Some (access_token api)
            ∧ auth (get_client api) = Token (access_token api))
  ∧ (truthy token = false → truthy env = true →
     ∃ api, made = inr api ∧ env = Some (access_token api)
            ∧ auth (get_client api) = Token (access_token api))
  ∧ ((∃ e, made = inl e) ↔ truthy token = false ∧ truthy env = false).
Proof.
  cbv zeta. unfold outcome. rewrite GitHubAPI_init_run. cbv zeta.
  split; [| split].
  - intros Htoken. rewrite !Htoken.
    apply truthy_true in Htoken as (s & -> & _).
    eexists. split; [reflexivity |]. split; reflexivity.
  - intros Htoken Henv. rewrite Htoken, Henv.
    apply truthy_true in Henv as (s & -> & _).
    eexists. split; [reflexivity |]. split; reflexivity.
  - destruct (truthy token) eqn:Htoken.
    + rewrite Htoken. simpl. split.
      * intros (e & He). discriminate.
      * intros (Hf & _). discriminate.
    + destruct (truthy (environ w !! "GITHUB_ACCESS_TOKEN")) eqn:Henv; simpl; split.
      * intros (e & He). discriminate.
      * intros (_ & Hf). discriminate.
      * intros _. split; reflexivity.
      * intros _. eexists. reflexivity.
Qed.

(** The environment stands in for a missing token: with
    GITHUB_ACCESS_TOKEN set, a call without a token succeeds. *)
Lemma GitHubAPI_init_missing_token_succeeds :
  truthy None = false
  ∧ outcome (GitHubAPI_init None None) world_with_token
    = inr (mkGitHubAPI "ghp_example" (mkGithub DEFAULT_BASE_URL (Token "ghp_example")))
  ∧ ¬ ∃ e, outcome (GitHubAPI_init None None) world_with_token = inl e.
Proof.
  split; [reflexivity |]. split; [vm_compute; reflexivity |].
  intros (e & He). vm_compute in He. discriminate.
Qed.

(** C4, as the constructor has it.  With an empty or missing token the
    construction fails once the environment variable GITHUB_ACCESS_TOKEN is
    empty or unset as well, and the exception is the [ValueError] of the
    constructor; with the variable set it succeeds instead, and the client is
    the one of the environment's token.  With a non-empty token it produces
    the client handle, authenticated with that token.  In each case the
    client is pointed at [base_url] when one is given, and no request is
    sent: the world is left as it was. *)
Theorem GitHubAPI_init_requires_token (token url : option string) (w : World) :
  (truthy token = false → truthy (environ w !! "GITHUB_ACCESS_TOKEN") = false →
     outcome (GitHubAPI_init token url) w = inl (ValueError TOKEN_REQUIRED))
  ∧ (∀ t, truthy token = false → environ w !! "GITHUB_ACCESS_TOKEN" = Some t → t ≠ "" →
       outcome (GitHubAPI_init token url) w
       = inr (mkGitHubAPI t
                (mkGithub (if truthy url then default DEFAULT_BASE_URL url
                           else DEFAULT_BASE_URL)
                   (Token t))))
  ∧ (∀ t, token = Some t → t ≠ "" →
       outcome (GitHubAPI_init token url) w
       = inr (mkGitHubAPI t
                (mkGithub (if truthy url then default DEFAULT_BASE_URL url
                           else DEFAULT_BASE_URL)
                   (Token t))))
  ∧ after (GitHubAPI_init token url) w = w.
Proof.
  split; [| split; [| split]].
  - intros Htoken Henv. unfold outcome. rewrite GitHubAPI_init_run. cbv zeta.
    rewrite Htoken, Henv. reflexivity.
  - intros t Htoken Henv Ht. unfold outcome. rewrite GitHubAPI_init_run. cbv zeta.
    assert (Htruthy : truthy (Some t) = true).
    { apply truthy_true. exists t. split; [reflexivity | exact Ht]. }
    rewrite Htoken, Henv, Htruthy. reflexivity.
  - intros t -> Ht. unfold outcome. rewrite GitHubAPI_init_run. cbv zeta.
    assert (Htruthy : truthy (Some t) = true).
    { apply truthy_true. exists t. split; [reflexivity | exact Ht]. }
    rewrite !Htruthy. reflexivity.
  - apply GitHubAPI_init_world.
Qed.

Lemma GitHubAPI_init_requires_token_witness :
  outcome (GitHubAPI_init (Some "") None) (mkWorld ∅ [] [] [])
  = inl (ValueError TOKEN_REQUIRED)
  ∧ outcome (GitHubAPI_init (Some "") (Some "https://ghe.example/api/v3"))
      world_with_token
    = inr (mkGitHubAPI "ghp_example"
             (mkGithub "https://ghe.example/api/v3" (Token "ghp_example")))
  ∧ outcome (GitHubAPI_init (Some "ghp_explicit") (Some "https://ghe.example/api/v3"))
      world_with_token
    = inr (mkGitHubAPI "ghp_explicit"
             (mkGithub "https://ghe.example/api/v3" (Token "ghp_explicit"))).
Proof.
  split; [| split].
  - apply (GitHubAPI_init_requires_token (Some "") None (mkWorld ∅ [] [] []));
      reflexivity.
  - destruct (GitHubAPI_init_requires_token (Some "")
                (Some "https://ghe.example/api/v3") world_with_token)
      as (_ & Hfallback & _ & _).
    apply (Hfallback "ghp_example"); [reflexivity | reflexivity | discriminate].
  - destruct (GitHubAPI_init_requires_token (Some "ghp_explicit")
                (Some "https://ghe.example/api/v3") world_with_token)
      as (_ & _ & Hexplicit & _).
    apply (Hexplicit "ghp_explicit"); [reflexivity | discriminate].
Defined.


(** [get_repo_names] case by case on what the remote answers. *)
Lemma get_repo_names_run service client n w :
  ∃ w',
    run (get_repo_names service client n) w =
    (match resolve service n with
     | None =>
         inl (ValueError
                ("'" +:+ n +:+ "' is neither a valid GitHub user nor organization."))
     | Some o =>
         match repos_of service o with
         | inl e => inl (Github_exc e)
         | inr listed =>
             inr (<["repositories" := JList (name <$> listed)]>
                    (<["owner" := JStr n]> ∅))
         end
     end, w').
Proof.
  unfold get_repo_names, resolve. rewrite run_bind.
  unfold try_except, get_organization, get_user, get_repos, request, run.
  destruct (organization service n) as [e1 | o]; simpl.
  - destruct (user service n) as [e2 | o]; simpl.
    + eexists. reflexivity.
    + destruct (repos_of service o); simpl; eexists; reflexivity.
  - destruct (repos_of service o); simpl; eexists; reflexivity.
Qed.

(** Resolving as an organization is not enough for a dictionary: the
    listing of the repositories can raise, and the exception is not a
    [ValueError]. *)
Lemma get_repo_names_listing_raises :
  resolve throttled_service "acme" = Some (mkOwner "acme" true)
  ∧ outcome (get_repo_names throttled_service sample_client "acme") quiet_world
    = inl (Github_exc rate_limited)
  ∧ ¬ ∃ d, outcome (get_repo_names throttled_service sample_client "acme") quiet_world
           = inr d.
Proof.
  split; [reflexivity |]. split; [reflexivity |].
  intros (d & Hd). discriminate.
Qed.

(** C9, as the function has it.  [get_repo_names] raises [ValueError]
    exactly when the name resolves as neither an organization nor a user.
    When it resolves and the repositories of the owner can be listed, the
    function returns the dictionary whose "owner" is the name given and
    whose "repositories" are the names of the repositories listed; when the
    listing raises, that exception leaves the function as it is. *)
Theorem get_repo_names_outcome service client n w :
  let got := outcome (get_repo_names service client n) w in
  ((∃ msg, got = inl (ValueError msg)) ↔ resolve service n = None)
  ∧ (∀ o listed, resolve service n = Some o → repos_of service o = inr listed →
       ∃ d : gmap string Json,
         got = inr d
         ∧ d !! "owner" = Some (JStr n)
         ∧ d !! "repositories" = Some (JList (name <$> listed))
         ∧ dom d = {["owner"; "repositories"]})
  ∧ (∀ o e, resolve service n = Some o → repos_of service o = inl e →
       got = inl (Github_exc e)).
Proof.
  cbv zeta. unfold outcome.
  destruct (get_repo_names_run service client n w) as (w' & ->). simpl.
  split; [| split].
  - destruct (resolve service n) as [o |].
    + split; [| discriminate].
      intros (msg & Hmsg). destruct (repos_of service o); discriminate.
    + split; [reflexivity |]. intros _. eexists. reflexivity.
  - intros o listed -> ->. eexists. split; [reflexivity |].
    split; [| split].
    + rewrite lookup_insert_ne by discriminate. apply lookup_insert_eq.
    + apply lookup_insert_eq.
    + rewrite !dom_insert_L, dom_empty_L. set_solver.
  - intros o e -> ->. reflexivity.
Qed.

Lemma get_repo_names_outcome_witness :
  ∃ d : gmap string Json,
    outcome (get_repo_names acme_service sample_client "octocat") quiet_world = inr d
    ∧ d !! "owner" = Some (JStr "octocat")
    ∧ d !! "repositories" = Some (JList ["api"; "web"])
    ∧ dom d = {["owner"; "repositories"]}.
Proof.
  destruct (get_repo_names_outcome acme_service sample_client "octocat" quiet_world)
    as (_ & Hlisted & _).
  exact (Hlisted (mkOwner "octocat" false) _ eq_refl eq_refl).
Defined.

(** One turn of the loop never raises: it stores the logins, or logs the
    error and stores the empty list. *)
Lemma contributors_body_run service client n acc w :
  ∃ w',
    run (contributors_body service client n acc) w
    = (inr (<[n := contributors_entry service n]> acc), w')
    ∧ logged w' = (logged w ++ contributors_failure service n)%list.
Proof.
  unfold contributors_body, contributors_entry, contributors_failure,
    contributors_answer.
  unfold try_except, run, mbind, M_mbind, M_bind, get_repo, get_contributors,
    request, log_error.
  destruct (repo service n) as [e | r]; simpl.
  - eexists. split; [reflexivity |]. reflexivity.
  - destruct (contributors_of service r) as [e | listed]; simpl.
    + eexists. split; [reflexivity |]. reflexivity.
    + eexists. split; [reflexivity |]. simpl. symmetry. apply app_nil_r.
Qed.

Lemma contributors_loop_run service client names :
  ∀ acc w, ∃ w',
    run (for_in names (contributors_body service client) acc) w
    = (inr (foldl (λ a n, <[n := contributors_entry service n]> a) acc names), w')
    ∧ logged w' = (logged w ++ (names ≫= contributors_failure service))%list.
Proof.
  induction names as [| n names IH]; intros acc w.
  - exists w. split; [reflexivity |]. simpl. symmetry. apply app_nil_r.
  - rewrite run_for_in_cons.
    destruct (contributors_body_run service client n acc w) as (w1 & -> & Hlog1).
    destruct (IH (<[n := contributors_entry service n]> acc) w1) as (w2 & -> & Hlog2).
    exists w2. split; [reflexivity |].
    rewrite Hlog2, Hlog1. simpl. symmetry. apply app_assoc.
Qed.

Lemma contributors_fold_lookup service names :
  ∀ (acc : gmap string (list string)) n,
    foldl (λ a n, <[n := contributors_entry service n]> a) acc names !! n
    = if bool_decide (n ∈ names) then Some (contributors_entry service n)
      else acc !! n.
Proof.
  induction names as [| m names IH]; intros acc n.
  - case_bool_decide as Hin; [| reflexivity].
    apply elem_of_nil in Hin. destruct Hin.
  - cbn [foldl]. rewrite IH.
    case_bool_decide as Htail; case_bool_decide as Hall; try reflexivity.
    + exfalso. apply Hall, elem_of_cons. right. exact Htail.
    + apply elem_of_cons in Hall as [-> | Hin]; [| contradiction].
      apply lookup_insert_eq.
    + apply lookup_insert_ne. intros ->. apply Hall, elem_of_cons. left. reflexivity.
Qed.

Lemma contributors_fold_ext service service' (names : list string) :
  (∀ n, n ∈ names → contributors_entry service' n = contributors_entry service n) →
  ∀ acc : gmap string (list string),
    foldl (λ a n, <[n := contributors_entry service' n]> a) acc names
    = foldl (λ a n, <[n := contributors_entry service n]> a) acc names.
Proof.
  induction names as [| n names IH]; intros Hsame acc; [reflexivity |].
  cbn [foldl]. rewrite Hsame by (apply elem_of_cons; left; reflexivity).
  apply IH. intros m Hm. apply Hsame, elem_of_cons. right. exact Hm.
Qed.

(** The caller cannot tell a repository that is gone from one nobody has
    contributed to: the dictionary returned for the batch with the deleted
    acme/gone is the dictionary returned when acme/gone exists and is
    empty. *)
Lemma get_github_contributors_no_marker :
  contributors_answer acme_service "acme/gone" = inl not_found
  ∧ contributors_answer empty_repo_service "acme/gone" = inr []
  ∧ outcome (get_github_contributors acme_service sample_client five_repositories)
      quiet_world
    = outcome (get_github_contributors empty_repo_service sample_client
                 five_repositories) quiet_world.
Proof. split; [| split]; vm_compute; reflexivity. Qed.

(** C3, as the function has it.  [get_github_contributors] never raises,
    whatever the batch of names and whatever the remote answers.  The
    dictionary it returns has the contributors of every name the remote can
    answer for, and the empty list for a name whose lookup or listing raises
    (a repository that no longer exists); names outside the batch are not in
    it.  The failure leaves its trace in the log only: an ERROR record whose
    message is "Error fetching contributors for", the name, and the text of
    the exception.  The dictionary carries no marker: a remote that answers
    with the same lists, failing or not, gives the same dictionary. *)
Theorem get_github_contributors_partial_failure service client (names : list string) w :
  ∃ result : gmap string (list string),
    outcome (get_github_contributors service client names) w = inr result
    ∧ (∀ n logins, n ∈ names → contributors_answer service n = inr logins →
         result !! n = Some logins)
    ∧ (∀ n e, n ∈ names → contributors_answer service n = inl e →
         result !! n = Some []
         ∧ mkLog ERROR
             ("Error fetching contributors for " +:+ n +:+ ": "
              +:+ pretty (status e) +:+ " " +:+ data e)
           ∈ logged (after (get_github_contributors service client names) w))
    ∧ (∀ n, n ∉ names → result !! n = None)
    ∧ (∀ service',
         (∀ n, n ∈ names →
            contributors_entry service' n = contributors_entry service n) →
         outcome (get_github_contributors service' client names) w = inr result).
Proof.
  unfold get_github_contributors, outcome, after.
  destruct (contributors_loop_run service client names ∅ w) as (w' & -> & Hlog).
  eexists. split; [reflexivity |]. simpl. split; [| split; [| split]].
  - intros n logins Hin Hanswer. rewrite contributors_fold_lookup.
    rewrite bool_decide_eq_true_2 by exact Hin.
    unfold contributors_entry. rewrite Hanswer. reflexivity.
  - intros n e Hin Hanswer. split.
    + rewrite contributors_fold_lookup.
      rewrite bool_decide_eq_true_2 by exact Hin.
      unfold contributors_entry. rewrite Hanswer. reflexivity.
    + rewrite Hlog. apply elem_of_app. right.
      apply list_elem_of_bind. exists n. split; [| exact Hin].
      unfold contributors_failure. rewrite Hanswer.
      apply list_elem_of_singleton. reflexivity.
  - intros n Hnin. rewrite contributors_fold_lookup.
    rewrite bool_decide_eq_false_2 by exact Hnin. apply lookup_empty.
  - intros service' Hsame.
    destruct (contributors_loop_run service' client names ∅ w) as (w2 & -> & _).
    simpl. f_equal. apply contributors_fold_ext, Hsame.
Qed.

(** The batch of the design document: one deleted repository among five
    names.  The four others come back with their contributors, the deleted
    one with the empty list and one error record. *)
Example get_github_contributors_one_missing_of_five :
  let done := run (get_github_contributors acme_service sample_client
                     five_repositories) quiet_world in
  done.1 = inr (list_to_map
                  [("acme/api", ["dev-acme/api"]); ("acme/web", ["dev-acme/web"]);
                   ("acme/gone", []); ("acme/docs", ["dev-acme/docs"]);
                   ("acme/cli", ["dev-acme/cli"])])
  ∧ logged done.2
    = [mkLog ERROR "Error fetching contributors for acme/gone: 404 Not Found"].
Proof. split; vm_compute; reflexivity. Qed.

(** *** The metrics functions *)





(** *** Further properties of the client and the utility functions *)

(** X1.  A [GitHubAPI] that was constructed never holds an empty token: its
    stored token is non-empty, the client is authenticated with that very
    token, and the endpoint of the client is non-empty (an empty [base_url]
    counts as none and gives the public endpoint). *)
Theorem GitHubAPI_init_invariant (token url : option string) (w : World) api :
  outcome (GitHubAPI_init token url) w = inr api →
  access_token api ≠ ""
  ∧ auth (get_client api) = Token (access_token api)
  ∧ base_url (get_client api) ≠ ""
  ∧ (truthy url = false → base_url (get_client api) = DEFAULT_BASE_URL).
Proof.
  unfold outcome. rewrite GitHubAPI_init_run. cbv zeta. simpl.
  destruct (truthy (if truthy token then token else _)) eqn:Htok; [| discriminate].
  apply truthy_true in Htok as (t & -> & Ht).
  intros [= <-]. simpl. split; [exact Ht |]. split; [reflexivity |].
  destruct (truthy url) eqn:Hurl.
  - apply truthy_true in Hurl as (u & -> & Hu). split; [exact Hu | discriminate].
  - split; [discriminate | reflexivity].
Qed.

Lemma GitHubAPI_init_invariant_witness :
  "ghp_example" ≠ ""
  ∧ Token "ghp_example" = Token "ghp_example"
  ∧ DEFAULT_BASE_URL ≠ ""
  ∧ (truthy (Some "") = false → DEFAULT_BASE_URL = DEFAULT_BASE_URL).
Proof.
  apply (GitHubAPI_init_invariant None (Some "") world_with_token
           (mkGitHubAPI "ghp_example" (mkGithub DEFAULT_BASE_URL (Token "ghp_example")))).
  reflexivity.
Defined.

(** X2.  Constructing again from what a constructed [GitHubAPI] stored gives
    the same object in every world: once the token was taken from the
    environment, passing the stored token explicitly no longer depends on the
    environment variable. *)
Theorem GitHubAPI_init_rebuild (token url : option string) (w : World) api :
  outcome (GitHubAPI_init token url) w = inr api →
  ∀ w', outcome (GitHubAPI_init (Some (access_token api)) url) w' = inr api.
Proof.
  unfold outcome. rewrite GitHubAPI_init_run. cbv zeta. simpl.
  destruct (truthy (if truthy token then token else _)) eqn:Htok; [| discriminate].
  apply truthy_true in Htok as (t & Heq & Ht). rewrite Heq.
  intros [= <-] w'. rewrite GitHubAPI_init_run. cbv zeta. simpl.
  assert (Htruthy : truthy (Some t) = true).
  { apply truthy_true. exists t. split; [reflexivity | exact Ht]. }
  pose proof Htruthy as Hnonempty. simpl in Hnonempty.
  rewrite ?Htruthy, ?Hnonempty. simpl. rewrite ?Hnonempty. reflexivity.
Qed.

Lemma GitHubAPI_init_rebuild_witness :
  outcome (GitHubAPI_init (Some "ghp_example") None) quiet_world
  = inr (mkGitHubAPI "ghp_example" (mkGithub DEFAULT_BASE_URL (Token "ghp_example"))).
Proof.
  apply (GitHubAPI_init_rebuild None None world_with_token
           (mkGitHubAPI "ghp_example" (mkGithub DEFAULT_BASE_URL (Token "ghp_example")))).
  reflexivity.
Defined.

(** [get_repo_names] with the world it leaves, case by case. *)
Lemma get_repo_names_after service client n w :
  after (get_repo_names service client n) w =
  match organization service n with
  | inr o => sent ("GET " +:+ owner_login o +:+ "/repos") (sent ("GET /orgs/" +:+ n) w)
  | inl _ =>
      match user service n with
      | inr o =>
          sent ("GET " +:+ owner_login o +:+ "/repos")
            (sent ("GET /users/" +:+ n) (sent ("GET /orgs/" +:+ n) w))
      | inl _ => sent ("GET /users/" +:+ n) (sent ("GET /orgs/" +:+ n) w)
      end
  end.
Proof.
  unfold after, get_repo_names. rewrite run_bind.
  unfold try_except, get_organization, get_user, get_repos, request, run.
  destruct (organization service n) as [e1 | o]; simpl.
  - destruct (user service n) as [e2 | o]; simpl; [reflexivity |].
    destruct (repos_of service o); reflexivity.
  - destruct (repos_of service o); reflexivity.
Qed.

(** X3.  The organization comes first: when the name is an organization,
    [get_repo_names] answers from the repositories of that organization
    whatever the user lookup would have said, and the user lookup is not
    sent: two calls go out, the organization lookup and the listing. *)
Theorem get_repo_names_prefers_organization service client n o w :
  organization service n = inr o →
  outcome (get_repo_names service client n) w
  = match repos_of service o with
    | inl e => inl (Github_exc e)
    | inr listed =>
        inr (<["repositories" := JList (name <$> listed)]> (<["owner" := JStr n]> ∅))
    end
  ∧ length (requests (after (get_repo_names service client n) w))
    = (length (requests w) + 2)%nat.
Proof.
  intros Horg. split.
  - unfold outcome. destruct (get_repo_names_run service client n w) as (w' & ->).
    unfold resolve. rewrite Horg. reflexivity.
  - rewrite get_repo_names_after, Horg. simpl. rewrite !length_app. simpl. lia.
Qed.

Lemma get_repo_names_prefers_organization_witness :
  outcome (get_repo_names acme_service sample_client "acme") quiet_world
  = inr (<["repositories" := JList ["api"; "web"]]> (<["owner" := JStr "acme"]> ∅))
  ∧ length (requests (after (get_repo_names acme_service sample_client "acme")
                        quiet_world))
    = (length (requests quiet_world) + 2)%nat.
Proof.
  apply (get_repo_names_prefers_organization acme_service sample_client "acme"
           (mkOwner "acme" true) quiet_world).
  reflexivity.
Defined.

(** X4.  [get_repo_names] costs two calls or three: the organization lookup
    always, the user lookup only after the organization lookup failed, the
    listing only for a name that resolved.  It logs nothing, prints nothing
    and leaves the environment alone, also when it raises. *)
Theorem get_repo_names_effects service client n w :
  let w' := after (get_repo_names service client n) w in
  length (requests w')
  = (length (requests w)
     + match organization service n, user service n with
       | inl _, inr _ => 3
       | _, _ => 2
       end)%nat
  ∧ take (length (requests w)) (requests w') = requests w
  ∧ environ w' = environ w ∧ logged w' = logged w ∧ stdout w' = stdout w.
Proof.
  cbv zeta. rewrite get_repo_names_after.
  destruct (organization service n) as [e1 | o]; [destruct (user service n) as [e2 | o] |];
    simpl; rewrite <- ?app_assoc, !length_app, take_app_length; simpl;
    repeat split; lia.
Qed.

(** The dictionary and the log [get_github_contributors] ends with. *)
Lemma get_github_contributors_run service client (names : list string) w :
  outcome (get_github_contributors service client names) w
  = inr (foldl (λ a n, <[n := contributors_entry service n]> a) ∅ names)
  ∧ logged (after (get_github_contributors service client names) w)
    = (logged w ++ (names ≫= contributors_failure service))%list.
Proof.
  unfold get_github_contributors, outcome, after.
  destruct (contributors_loop_run service client names ∅ w) as (w' & -> & Hlog).
  split; [reflexivity | exact Hlog].
Qed.

Lemma contributors_fold_dom service (names : list string) :
  ∀ acc : gmap string (list string),
    dom (foldl (λ a n, <[n := contributors_entry service n]> a) acc names)
    = list_to_set names ∪ dom acc.
Proof.
  induction names as [| n names IH]; intros acc; cbn [foldl].
  - set_solver.
  - rewrite IH, dom_insert_L, list_to_set_cons. set_solver.
Qed.

(** X5.  The dictionary [get_github_contributors] returns has exactly the
    names of the batch as its keys: a name given twice is one key, so the
    dictionary has at most as many entries as the batch has names, and as
    many when no name is repeated. *)
Theorem get_github_contributors_keys service client (names : list string) w :
  ∃ result : gmap string (list string),
    outcome (get_github_contributors service client names) w = inr result
    ∧ dom result = list_to_set names
    ∧ (size result ≤ length names)%nat
    ∧ (NoDup names → size result = length names).
Proof.
  destruct (get_github_contributors_run service client names w) as (-> & _).
  eexists. split; [reflexivity |].
  assert (Hdom : dom (foldl (λ a n, <[n := contributors_entry service n]> a)
                        (∅ : gmap string (list string)) names)
                 = list_to_set names).
  { rewrite contributors_fold_dom, dom_empty_L. set_solver. }
  split; [exact Hdom |].
  rewrite <- size_dom, Hdom. split.
  - clear Hdom. induction names as [| n names IH]; [rewrite list_to_set_nil, size_empty; simpl; lia |].
    rewrite list_to_set_cons. cbn [length].
    pose proof (size_union_alt (C := gset string) {[n]} (list_to_set names)) as Hsize.
    rewrite Hsize, size_singleton.
    pose proof (subseteq_size (C := gset string)
                  (list_to_set names ∖ {[n]}) (list_to_set names)) as Hle.
    assert (Hsub : (list_to_set names ∖ {[n]} : gset string) ⊆ list_to_set names)
      by set_solver.
    specialize (Hle Hsub). lia.
  - intros Hnodup. apply size_list_to_set. exact Hnodup.
Qed.

(** X6.  [get_github_contributors] logs one ERROR record for each name of
    the batch whose lookup or listing raised, in the order of the batch, and
    nothing else: a batch the remote answers in full leaves the log as it
    was. *)
Theorem get_github_contributors_log service client (names : list string) w :
  let w' := after (get_github_contributors service client names) w in
  logged w' = (logged w ++ (names ≫= contributors_failure service))%list
  ∧ length (logged w')
    = (length (logged w)
       + length (List.filter
                   (λ n, if contributors_answer service n is inl _ then true else false)
                   names))%nat
  ∧ (∀ r, r ∈ drop (length (logged w)) (logged w') → level r = ERROR)
  ∧ ((∀ n, n ∈ names → ∃ logins, contributors_answer service n = inr logins) →
     logged w' = logged w).
Proof.
  cbv zeta.
  destruct (get_github_contributors_run service client names w) as (_ & ->).
  split; [reflexivity |]. split; [| split].
  - rewrite length_app. f_equal.
    induction names as [| n names IH]; [reflexivity |].
    cbn [mbind list_bind List.filter]. rewrite length_app, IH.
    unfold contributors_failure.
    destruct (contributors_answer service n); reflexivity.
  - rewrite drop_app_length. intros r (n & Hr & _)%list_elem_of_bind.
    unfold contributors_failure in Hr.
    destruct (contributors_answer service n); [| apply elem_of_nil in Hr; destruct Hr].
    apply list_elem_of_singleton in Hr as ->. reflexivity.
  - intros Hall.
    assert (Hnone : names ≫= contributors_failure service = []).
    { induction names as [| n names IH]; [reflexivity |].
      cbn [mbind list_bind]. rewrite IH.
      - destruct (Hall n) as (logins & Hn); [apply elem_of_cons; left; reflexivity |].
        unfold contributors_failure. rewrite Hn. reflexivity.
      - intros m Hm. apply Hall, elem_of_cons. right. exact Hm. }
    rewrite Hnone. apply app_nil_r.
Qed.

(** X7.  Batches compose: the dictionary for the batch [xs ++ ys] is the
    dictionary for [ys] completed by the entries of the dictionary for [xs],
    so fetching a long batch in two calls and merging gives what one call
    gives. *)
Theorem get_github_contributors_app service client (xs ys : list string) w :
  ∃ rx ry : gmap string (list string),
    outcome (get_github_contributors service client xs) w = inr rx
    ∧ outcome (get_github_contributors service client ys) w = inr ry
    ∧ outcome (get_github_contributors service client (xs ++ ys)) w = inr (ry ∪ rx).
Proof.
  destruct (get_github_contributors_run service client xs w) as (-> & _).
  destruct (get_github_contributors_run service client ys w) as (-> & _).
  destruct (get_github_contributors_run service client (xs ++ ys) w) as (-> & _).
  eexists _, _. split; [reflexivity |]. split; [reflexivity |]. f_equal.
  apply map_eq. intros n.
  rewrite lookup_union, !contributors_fold_lookup.
  repeat case_bool_decide; rewrite ?lookup_empty; try reflexivity.
  - exfalso. set_solver.
  - exfalso. set_solver.
  - exfalso. set_solver.
  - exfalso. set_solver.
Qed.
End GitHubProps.

(** ** The statistics cells of the Asana notebook *)

Module AsanaProps.

Import Asana Samples.

Lemma counted_without_key key col k rs :
  has_key key k rs = false → counted key col k rs = 0%nat.
Proof.
  unfold has_key, counted. induction rs as [| r rs IH]; simpl; [reflexivity |].
  intros [Hr Hrs]%orb_false_iff. rewrite Hr. simpl. apply IH, Hrs.
Qed.

(** The dictionary [groupby(key)[col].count()] builds, key by key. *)
Lemma tally_fold_lookup key col (rs : list (gmap string string)) k :
  foldl (tally key col) ∅ rs !! k
  = if has_key key k rs then Some (counted key col k rs) else None.
Proof.
  induction rs as [| r rs IH] using rev_ind; [apply lookup_empty |].
  rewrite foldl_app. cbn [foldl]. unfold tally at 1.
  unfold has_key, counted in *.
  rewrite existsb_app, List.filter_app, length_app. cbn [existsb List.filter].
  rewrite orb_false_r.
  destruct (r !! key) as [k' |] eqn:Hkey.
  - destruct (decide (k' = k)) as [-> | Hne].
    + rewrite lookup_insert_eq, IH.
      rewrite (bool_decide_eq_true_2 (Some k = Some k)) by reflexivity.
      rewrite orb_true_r. cbn [andb].
      destruct (existsb _ rs) eqn:Hhas; cbn [default].
      * f_equal. f_equal. destruct (r !! col); reflexivity.
      * pose proof (counted_without_key key col k rs Hhas) as Hzero.
        unfold counted in Hzero. rewrite Hzero.
        f_equal. f_equal. destruct (r !! col); reflexivity.
    + rewrite lookup_insert_ne by exact Hne. rewrite IH.
      rewrite (bool_decide_eq_false_2 (Some k' = Some k)) by congruence.
      rewrite orb_false_r. cbn [andb length]. rewrite Nat.add_0_r. reflexivity.
  - rewrite IH. rewrite (bool_decide_eq_false_2 (None = Some k)) by discriminate.
    rewrite orb_false_r. cbn [andb length]. rewrite Nat.add_0_r. reflexivity.
Qed.


Lemma computing_statistics_run created completed on_created on_completed :
  ∃ out, ∀ w,
    run (computing_statistics created completed on_created on_completed) w
    = (inr (len created, len completed, len on_created, len on_completed),
       mkWorld (environ w) (requests w) (logged w) (stdout w ++ out)%list).
Proof.
  eexists [_; _; _; _]. intros w.
  unfold computing_statistics, run, mbind, M_mbind, M_bind, print, printed. simpl.
  rewrite <- !app_assoc. reflexivity.
Qed.

Lemma tasks_created_by_user_grouped df w :
  empty df = false → "assignee" ∈ columns df → "task_id" ∈ columns df →
  outcome (tasks_created_by_user df) w
  = inr (Some (foldl (tally "assignee" "task_id") ∅ (rows df))).
Proof.
  intros Hempty Hassignee Htask.
  unfold outcome, tasks_created_by_user, groupby_count. rewrite Hempty.
  rewrite !bool_decide_eq_true_2 by assumption. reflexivity.
Qed.

(** A task without an assignee is counted under no key: the notebook has no
    "unassigned" group. *)
Lemma tasks_created_by_user_drops_unassigned :
  length (unassigned (rows three_tasks)) = 1%nat
  ∧ outcome (tasks_created_by_user three_tasks) quiet_world
    = inr (Some {["alice" := 2%nat]})
  ∧ ¬ ∃ counts : gmap string nat,
        outcome (tasks_created_by_user three_tasks) quiet_world = inr (Some counts)
        ∧ counts !! "unassigned" = Some (length (unassigned (rows three_tasks))).
Proof.
  assert (Hout : outcome (tasks_created_by_user three_tasks) quiet_world
                 = inr (Some {["alice" := 2%nat]})) by (vm_compute; reflexivity).
  split; [vm_compute; reflexivity |]. split; [exact Hout |].
  intros (counts & Hcounts & Hkey). rewrite Hout in Hcounts.
  injection Hcounts as <-. vm_compute in Hkey. discriminate.
Qed.

(** C2, as the notebook has it.  The per-user cell groups the tasks by
    their assignee.  The counts have a key exactly for the assignees that
    occur, and the count of a key is the number of tasks with that assignee
    (and a task id); a task whose assignee is null or missing is counted
    under no key, so "unassigned" is a key only where it is the assignee
    written in some task. *)
Theorem tasks_created_by_user_counts df w :
  empty df = false → "assignee" ∈ columns df → "task_id" ∈ columns df →
  ∃ counts : gmap string nat,
    outcome (tasks_created_by_user df) w = inr (Some counts)
    ∧ (∀ k, counts !! k
            = if has_key "assignee" k (rows df)
              then Some (counted "assignee" "task_id" k (rows df))
              else None)
    ∧ (∀ k, counts !! k
            = if has_key "assignee" k (rows df)
              then Some (counted "assignee" "task_id" k
                           (List.filter (λ r, bool_decide (is_Some (r !! "assignee")))
                              (rows df)))
              else None).
Proof.
  intros Hempty Hassignee Htask. eexists. split; [| split].
  - apply tasks_created_by_user_grouped; assumption.
  - intros k. apply tally_fold_lookup.
  - intros k. rewrite tally_fold_lookup.
    destruct (has_key "assignee" k (rows df)); [| reflexivity].
    f_equal. unfold counted. f_equal.
    induction (rows df) as [| r rs IH]; [reflexivity |]. cbn [List.filter].
    destruct (r !! "assignee") as [a |] eqn:Ha.
    + rewrite (bool_decide_eq_true_2 (is_Some (Some a))) by (eexists; reflexivity).
      cbn [List.filter]. rewrite Ha.
      destruct (bool_decide (Some a = Some k) && bool_decide (is_Some (r !! "task_id")));
        [f_equal |]; exact IH.
    + rewrite (bool_decide_eq_false_2 (None = Some k)) by discriminate.
      rewrite (bool_decide_eq_false_2 (is_Some None)) by (intros [? ?]; discriminate).
      cbn [andb]. exact IH.
Qed.

Lemma tasks_created_by_user_counts_witness :
  ∃ counts : gmap string nat,
    outcome (tasks_created_by_user three_tasks) quiet_world = inr (Some counts)
    ∧ (∀ k, counts !! k
            = if has_key "assignee" k (rows three_tasks)
              then Some (counted "assignee" "task_id" k (rows three_tasks))
              else None)
    ∧ (∀ k, counts !! k
            = if has_key "assignee" k (rows three_tasks)
              then Some (counted "assignee" "task_id" k
                           (List.filter (λ r, bool_decide (is_Some (r !! "assignee")))
                              (rows three_tasks)))
              else None).
Proof.
  apply (tasks_created_by_user_counts three_tasks quiet_world).
  - reflexivity.
  - apply (bool_decide_eq_true_1 _). reflexivity.
  - apply (bool_decide_eq_true_1 _). reflexivity.
Defined.




(** Without tasks the cell binds no counts at all. *)
Lemma tasks_created_by_user_empty_no_counts :
  rows no_tasks = []
  ∧ outcome (tasks_created_by_user no_tasks) quiet_world = inr None
  ∧ outcome (tasks_created_by_user no_tasks) quiet_world ≠ inr (Some ∅).
Proof.
  split; [reflexivity |]. split; [reflexivity |]. discriminate.
Qed.

(** C7, as the notebook has it.  On frames without rows the statistics
    cells do not raise: the four totals are 0, and the per-user cell takes
    the branch of its guard that prints the "No tasks created" line and
    binds no counts. *)
Theorem statistics_of_empty_frames (tasks comments : DataFrame) (w : World) :
  rows tasks = [] → rows comments = [] →
  outcome (computing_statistics tasks tasks comments comments) w
  = inr (0, 0, 0, 0)%nat
  ∧ outcome (tasks_created_by_user tasks) w = inr None
  ∧ stdout (after (tasks_created_by_user tasks) w) = (stdout w ++ [[Text NO_TASKS]])%list.
Proof.
  intros Htasks Hcomments. split; [| split].
  - destruct (computing_statistics_run tasks tasks comments comments) as (out & Hrun).
    unfold outcome. rewrite Hrun. unfold len. rewrite Htasks, Hcomments. reflexivity.
  - unfold outcome, tasks_created_by_user, empty. rewrite Htasks.
    rewrite (bool_decide_eq_true_2 ([] = [])) by reflexivity.
    rewrite orb_true_r. reflexivity.
  - unfold after, tasks_created_by_user, empty. rewrite Htasks.
    rewrite (bool_decide_eq_true_2 ([] = [])) by reflexivity.
    rewrite orb_true_r. reflexivity.
Qed.

Lemma statistics_of_empty_frames_witness :
  outcome (computing_statistics no_tasks no_tasks no_comments no_comments) quiet_world
  = inr (0, 0, 0, 0)%nat
  ∧ outcome (tasks_created_by_user no_tasks) quiet_world = inr None
  ∧ stdout (after (tasks_created_by_user no_tasks) quiet_world)
    = (stdout quiet_world ++ [[Text NO_TASKS]])%list.
Proof.
  apply (statistics_of_empty_frames no_tasks no_comments quiet_world); reflexivity.
Defined.

(** *** Further properties of the statistics cells *)


Lemma has_key_permutation key k (rs rs' : list (gmap string string)) :
  rs ≡ₚ rs' → has_key key k rs = has_key key k rs'.
Proof.
  unfold has_key. induction 1 as [| r rs rs' _ IH | r1 r2 rs | rs1 rs2 rs3 _ IH1 _ IH2];
    cbn [existsb].
  - reflexivity.
  - rewrite IH. reflexivity.
  - rewrite !orb_assoc. f_equal. apply orb_comm.
  - rewrite IH1. exact IH2.
Qed.

Lemma counted_permutation key col k (rs rs' : list (gmap string string)) :
  rs ≡ₚ rs' → counted key col k rs = counted key col k rs'.
Proof.
  unfold counted. induction 1 as [| r rs rs' _ IH | r1 r2 rs | rs1 rs2 rs3 _ IH1 _ IH2];
    cbn [List.filter].
  - reflexivity.
  - destruct (_ && _); cbn [length]; rewrite IH; reflexivity.
  - do 2 destruct (_ && _); reflexivity.
  - rewrite IH1. exact IH2.
Qed.

(** X9.  The counts do not depend on the order of the tasks: a frame with
    the same columns and the same rows in another order gives the same
    outcome, the same counts under the same assignees. *)
Theorem tasks_created_by_user_permutation df (rows' : list (gmap string string)) w :
  rows df ≡ₚ rows' →
  outcome (tasks_created_by_user (mkDataFrame (columns df) rows')) w
  = outcome (tasks_created_by_user df) w.
Proof.
  intros Hperm.
  assert (Hempty : empty (mkDataFrame (columns df) rows') = empty df).
  { unfold empty. cbn [columns rows]. f_equal.
    destruct (rows df) as [| r rs]; destruct rows' as [| r' rs']; try reflexivity.
    - apply Permutation_nil_l in Hperm. discriminate.
    - apply Permutation_nil_r in Hperm. discriminate. }
  unfold outcome, tasks_created_by_user, groupby_count. rewrite Hempty.
  cbn [columns rows].
  destruct (negb (empty df) && bool_decide ("assignee" ∈ columns df)); [| reflexivity].
  destruct (bool_decide ("assignee" ∈ columns df)); [| reflexivity].
  destruct (bool_decide ("task_id" ∈ columns df)); [| reflexivity].
  assert (Hsame : foldl (tally "assignee" "task_id") ∅ rows'
                  = foldl (tally "assignee" "task_id") ∅ (rows df)).
  { apply map_eq. intros k. rewrite !tally_fold_lookup.
    rewrite (has_key_permutation _ _ _ _ Hperm).
    rewrite (counted_permutation _ _ _ _ _ Hperm). reflexivity. }
  unfold run, mbind, M_mbind, M_bind, mret, M_mret, M_ret, print. simpl.
  rewrite Hsame. reflexivity.
Qed.

Lemma tasks_created_by_user_permutation_witness :
  outcome (tasks_created_by_user
             (mkDataFrame (columns three_tasks) (reverse (rows three_tasks))))
    quiet_world
  = outcome (tasks_created_by_user three_tasks) quiet_world.
Proof.
  apply (tasks_created_by_user_permutation three_tasks (reverse (rows three_tasks))
           quiet_world).
  symmetry. apply reverse_Permutation.
Defined.

(** X10.  Counting composes over concatenated frames: the counts of the
    rows [r1 ++ r2] are the counts of [r1] and the counts of [r2] added key
    by key, a key of only one part keeping its count. *)
Theorem groupby_count_concat key col cols (r1 r2 : list (gmap string string)) w :
  key ∈ cols → col ∈ cols →
  ∃ c1 c2 : gmap string nat,
    outcome (groupby_count key col (mkDataFrame cols r1)) w = inr c1
    ∧ outcome (groupby_count key col (mkDataFrame cols r2)) w = inr c2
    ∧ outcome (groupby_count key col (mkDataFrame cols (r1 ++ r2))) w
      = inr (union_with (λ a b, Some (a + b)%nat) c1 c2).
Proof.
  intros Hkey Hcol. unfold outcome, groupby_count. cbn [columns rows].
  rewrite !bool_decide_eq_true_2 by assumption.
  eexists _, _. split; [reflexivity |]. split; [reflexivity |].
  simpl. f_equal. apply map_eq. intros k.
  rewrite lookup_union_with, !tally_fold_lookup.
  unfold has_key, counted.
  rewrite existsb_app, List.filter_app, length_app.
  destruct (existsb _ r1) eqn:H1; destruct (existsb _ r2) eqn:H2; cbn [orb union_with];
    try reflexivity.
  - pose proof (counted_without_key key col k r2 H2) as Hzero.
    unfold counted in Hzero. rewrite Hzero, Nat.add_0_r. reflexivity.
  - pose proof (counted_without_key key col k r1 H1) as Hzero.
    unfold counted in Hzero. rewrite Hzero. reflexivity.
Qed.

Lemma groupby_count_concat_witness :
  ∃ c1 c2 : gmap string nat,
    outcome (groupby_count "assignee" "task_id"
               (mkDataFrame TASK_COLUMNS (rows three_tasks))) quiet_world = inr c1
    ∧ outcome (groupby_count "assignee" "task_id"
                 (mkDataFrame TASK_COLUMNS (rows three_tasks))) quiet_world = inr c2
    ∧ outcome (groupby_count "assignee" "task_id"
                 (mkDataFrame TASK_COLUMNS (rows three_tasks ++ rows three_tasks)))
        quiet_world
      = inr (union_with (λ a b, Some (a + b)%nat) c1 c2).
Proof.
  apply (groupby_count_concat "assignee" "task_id" TASK_COLUMNS
           (rows three_tasks) (rows three_tasks) quiet_world).
  - apply (bool_decide_eq_true_1 _). reflexivity.
  - apply (bool_decide_eq_true_1 _). reflexivity.
Defined.

Lemma total_insert (m : gmap string nat) k c :
  total (<[k := (default 0 (m !! k) + c)%nat]> m) = (total m + c)%nat.
Proof.
  unfold total.
  assert (Hcomm : ∀ (m' : gmap string nat) (j1 j2 : string) (z1 z2 y : nat),
             j1 ≠ j2 → m' !! j1 = Some z1 → m' !! j2 = Some z2 →
             (z1 + (z2 + y) = z2 + (z1 + y))%nat) by (intros; lia).
  destruct (m !! k) as [v |] eqn:Hk; cbn [default]; unfold id.
  - rewrite <- insert_delete_eq.
    rewrite map_fold_insert_L; [| apply Hcomm | apply lookup_delete_eq].
    rewrite (map_fold_delete_L _ _ k v m); [lia | apply Hcomm | exact Hk].
  - rewrite map_fold_insert_L; [lia | apply Hcomm | exact Hk].
Qed.

Lemma total_tally (rs : list (gmap string string)) :
  total (foldl (tally "assignee" "task_id") ∅ rs)
  = length (List.filter
              (λ r, bool_decide (is_Some (r !! "assignee"))
                    && bool_decide (is_Some (r !! "task_id"))) rs).
Proof.
  induction rs as [| r rs IH] using rev_ind; [reflexivity |].
  rewrite foldl_snoc, List.filter_app, length_app, <- IH. cbn [List.filter].
  unfold tally at 1. destruct (r !! "assignee") as [a |].
  - rewrite total_insert.
    rewrite (bool_decide_eq_true_2 (is_Some (Some a))) by (eexists; reflexivity).
    f_equal. destruct (r !! "task_id") as [i |].
    + rewrite (bool_decide_eq_true_2 (is_Some (Some i))) by (eexists; reflexivity).
      reflexivity.
    + rewrite (bool_decide_eq_false_2 (is_Some None)) by (intros [? ?]; discriminate).
      reflexivity.
  - rewrite (bool_decide_eq_false_2 (is_Some None)) by (intros [? ?]; discriminate).
    cbn [andb length]. lia.
Qed.

Lemma tasks_created_by_user_bound df w counts :
  outcome (tasks_created_by_user df) w = inr (Some counts) →
  counts = foldl (tally "assignee" "task_id") ∅ (rows df).
Proof.
  unfold outcome, tasks_created_by_user, groupby_count.
  destruct (negb (empty df) && bool_decide ("assignee" ∈ columns df)); [| discriminate].
  destruct (bool_decide ("assignee" ∈ columns df)); [| discriminate].
  destruct (bool_decide ("task_id" ∈ columns df)); [| discriminate].
  intros [= <-]. reflexivity.
Qed.

(** X11.  The per-user counts add up to the number of tasks that have an
    assignee (and a task id): never more than the number of tasks created
    that the notebook reports, and, where every task has an id, short of it
    by exactly the tasks without an assignee. *)
Theorem tasks_created_by_user_total df w counts :
  outcome (tasks_created_by_user df) w = inr (Some counts) →
  total counts
  = length (List.filter
              (λ r, bool_decide (is_Some (r !! "assignee"))
                    && bool_decide (is_Some (r !! "task_id"))) (rows df))
  ∧ (total counts ≤ len df)%nat
  ∧ ((∀ r, r ∈ rows df → is_Some (r !! "task_id")) →
     (total counts + length (unassigned (rows df)) = len df)%nat).
Proof.
  intros ->%tasks_created_by_user_bound. rewrite total_tally. unfold len, unassigned.
  split; [reflexivity |]. split.
  - apply List.filter_length_le.
  - intros Hids. induction (rows df) as [| r rs IH]; [reflexivity |].
    cbn [List.filter length].
    assert (Hr : is_Some (r !! "task_id")) by (apply Hids, elem_of_cons; left; reflexivity).
    assert (Hrs : (length (List.filter
                             (λ r, bool_decide (is_Some (r !! "assignee"))
                                   && bool_decide (is_Some (r !! "task_id"))) rs)
                   + length (List.filter
                               (λ r, bool_decide (r !! "assignee" = None)) rs)
                   = length rs)%nat).
    { apply IH. intros r' Hr'. apply Hids, elem_of_cons. right. exact Hr'. }
    rewrite (bool_decide_eq_true_2 _ Hr), andb_true_r.
    destruct (r !! "assignee") as [a |].
    + rewrite (bool_decide_eq_true_2 (is_Some (Some a))) by (eexists; reflexivity).
      rewrite (bool_decide_eq_false_2 (Some a = None)) by discriminate.
      cbn [length]. lia.
    + rewrite (bool_decide_eq_false_2 (is_Some None)) by (intros [? ?]; discriminate).
      rewrite (bool_decide_eq_true_2 (None = None)) by reflexivity.
      cbn [length]. lia.
Qed.

Lemma tasks_created_by_user_total_witness :
  total {["alice" := 2%nat]}
  = length (List.filter
              (λ r, bool_decide (is_Some (r !! "assignee"))
                    && bool_decide (is_Some (r !! "task_id"))) (rows three_tasks))
  ∧ (total {["alice" := 2%nat]} ≤ len three_tasks)%nat
  ∧ ((∀ r, r ∈ rows three_tasks → is_Some (r !! "task_id")) →
     (total {["alice" := 2%nat]} + length (unassigned (rows three_tasks))
      = len three_tasks)%nat).
Proof.
  apply (tasks_created_by_user_total three_tasks quiet_world {["alice" := 2%nat]}).
  vm_compute. reflexivity.
Defined.

(** X12.  The ids the notebook asks comments for.  On an empty frame the
    list is empty and nothing is raised, even without a task_id column; on a
    frame with rows and columns the cell raises [KeyError] exactly when there
    is no task_id column, and otherwise gives the task_id cell of every row
    in order, as many ids as the notebook counts tasks. *)
Theorem created_task_ids_cases df w :
  (empty df = true → run (created_task_ids df) w = (inr [], w))
  ∧ (empty df = false →
     ((∃ e, outcome (created_task_ids df) w = inl e) ↔ "task_id" ∉ columns df)
     ∧ ("task_id" ∈ columns df →
        ∃ ids, outcome (created_task_ids df) w = inr ids
               ∧ length ids = len df
               ∧ ∀ i r, rows df !! i = Some r → ids !! i = Some (r !! "task_id"))).
Proof.
  unfold created_task_ids, column_tolist, outcome. split.
  - intros ->. reflexivity.
  - intros ->. cbn [negb]. case_bool_decide as Htask; simpl; split.
    + split; [intros (e & He); discriminate | intros Hno; contradiction].
    + intros _. eexists. split; [reflexivity |]. split.
      * unfold len. apply length_fmap.
      * intros i r Hi. rewrite list_lookup_fmap, Hi. reflexivity.
    + split; [intros _; exact Htask | intros _; eexists; reflexivity].
    + intros Hyes. contradiction.
Qed.

Lemma created_task_ids_cases_witness :
  run (created_task_ids no_tasks) quiet_world = (inr [], quiet_world)
  ∧ ∃ ids, outcome (created_task_ids three_tasks) quiet_world = inr ids
           ∧ length ids = len three_tasks
           ∧ ∀ i r, rows three_tasks !! i = Some r → ids !! i = Some (r !! "task_id").
Proof.
  split.
  - apply (created_task_ids_cases no_tasks quiet_world). reflexivity.
  - apply (created_task_ids_cases three_tasks quiet_world).
    + reflexivity.
    + apply (bool_decide_eq_true_1 _). reflexivity.
Defined.

End AsanaProps.

(** ** The markdown file of the project descriptions *)

Module ProjectDescriptionProps.

Import Asana ProjectDescription Samples.

Lemma append_assoc (a b c : string) : (a +:+ b) +:+ c = a +:+ (b +:+ c).
Proof.
  induction a as [| x a IH]; [reflexivity |].
  change (String x ((a +:+ b) +:+ c) = String x (a +:+ (b +:+ c))).
  rewrite IH. reflexivity.
Qed.

Lemma append_empty_r (a : string) : a +:+ "" = a.
Proof.
  induction a as [| x a IH]; [reflexivity |].
  change (String x (a +:+ "") = String x a). rewrite IH. reflexivity.
Qed.

Lemma write_written path text old m :
  disk m !! path = Some old →
  write path text m = mkMachine (<[path := old +:+ text]> (disk m)) (asked m).
Proof. intros Hold. unfold write. rewrite Hold. reflexivity. Qed.

Lemma header_written path m :
  write path ("# DATA605 Projects" +:+ nl +:+ nl) (truncate path m)
  = mkMachine (<[path := HEADER]> (disk m)) (asked m).
Proof.
  unfold write, truncate. cbn [disk asked].
  rewrite lookup_insert_eq, insert_insert_eq. reflexivity.
Qed.

Section Helpers.

Variable get_completion : string → string → PyExc + string.
Variable openable : string → bool.

(** The loop over a run of rows the helper answers for: their sections are
    appended, their prompts sent, and the loop goes on with the rest. *)
Lemma write_rows_answered df path rest :
  "Project Name" ∈ columns df → "Difficulty" ∈ columns df →
  ∀ done ds, Forall2 (λ row d, described get_completion row = inr d) done ds →
  ∀ m old, disk m !! path = Some old →
    write_rows get_completion df path (done ++ rest) m
    = write_rows get_completion df path rest
        (mkMachine (<[path := old +:+ sections done ds]> (disk m))
           (asked m ++ (prompt_of <$> done))).
Proof.
  intros Hname Hdifficulty done ds Hall.
  induction Hall as [| row d done ds Hrow _ IH]; intros m old Hold.
  - unfold sections. simpl. rewrite append_empty_r, app_nil_r.
    rewrite insert_id by exact Hold. destruct m; reflexivity.
  - cbn [app write_rows]. unfold getitem.
    rewrite !bool_decide_eq_true_2 by assumption.
    unfold generate_project_description. unfold described, cell in Hrow. rewrite Hrow.
    cbv zeta.
    unfold write. cbn [disk asked]. rewrite Hold, !lookup_insert_eq.
    cbn [default]. unfold id.
    cbn [disk asked]. rewrite !insert_insert_eq.
    erewrite IH by (cbn [disk]; apply lookup_insert_eq).
    cbn [disk asked]. rewrite insert_insert_eq.
    f_equal. f_equal.
    + f_equal. unfold sections. cbn [zip_with foldr].
      unfold section_of, section_text, cell. rewrite !append_assoc. reflexivity.
    + rewrite <- app_assoc. reflexivity.
Qed.

(** Whatever the rows and the helper, the loop only appends to the file it
    was given and to the prompts sent, and what it appends does not depend
    on the machine it started from. *)
Lemma write_rows_appends df path todo :
  ∃ out body qs, ∀ m old, disk m !! path = Some old →
    write_rows get_completion df path todo m
    = (out, mkMachine (<[path := old +:+ body]> (disk m)) (asked m ++ qs)).
Proof.
  assert (Hnothing : ∀ m old, disk m !! path = Some old →
            m = mkMachine (<[path := old +:+ ""]> (disk m)) (asked m ++ [])).
  { intros m old Hold. rewrite append_empty_r, app_nil_r.
    rewrite insert_id by exact Hold. destruct m; reflexivity. }
  induction todo as [| row rest (out & body & qs & IH)].
  - exists (inr tt), "", []. intros m old Hold. cbn [write_rows].
    f_equal. apply Hnothing, Hold.
  - cbn [write_rows].
    destruct (getitem df row "Project Name") as [e | project_name].
    { exists (inl e), "", []. intros m old Hold. f_equal. apply Hnothing, Hold. }
    destruct (getitem df row "Difficulty") as [e | difficulty].
    { exists (inl e), "", []. intros m old Hold. f_equal. apply Hnothing, Hold. }
    unfold generate_project_description.
    destruct (get_completion (prompt_for project_name difficulty) MODEL)
      as [e | description].
    + exists (inl e), "", [(prompt_for project_name difficulty, MODEL)].
      intros m old Hold. f_equal. rewrite append_empty_r.
      rewrite insert_id by exact Hold. reflexivity.
    + exists out, (section_text project_name difficulty description +:+ body),
        ((prompt_for project_name difficulty, MODEL) :: qs).
      intros m old Hold. cbv zeta.
      unfold write. cbn [disk asked]. rewrite Hold, !lookup_insert_eq.
      cbn [default]. unfold id. rewrite !insert_insert_eq.
      erewrite IH by (cbn [disk]; apply lookup_insert_eq).
      cbn [disk asked]. rewrite insert_insert_eq. f_equal. f_equal.
      * f_equal. unfold section_text. rewrite !append_assoc. reflexivity.
      * rewrite <- app_assoc. reflexivity.
Qed.

(** X13.  When the file can be opened, the sheet has both columns and the
    helper answers for every row, [create_markdown_file] returns and the file
    holds the header followed by one section per row, in the order of the
    sheet: name, difficulty, then the description the helper gave for that
    row.  One prompt was sent per row, in the same order. *)
Theorem create_markdown_file_written df path m ds :
  openable path = true →
  "Project Name" ∈ columns df → "Difficulty" ∈ columns df →
  Forall2 (λ row d, described get_completion row = inr d) (rows df) ds →
  create_markdown_file get_completion openable df path m
  = (inr tt,
     mkMachine (<[path := HEADER +:+ sections (rows df) ds]> (disk m))
       (asked m ++ (prompt_of <$> rows df))).
Proof.
  intros Hopen Hname Hdifficulty Hall. unfold create_markdown_file.
  rewrite Hopen. cbv zeta. rewrite header_written.
  rewrite <- (app_nil_r (rows df)) at 1.
  rewrite (write_rows_answered df path [] Hname Hdifficulty _ _ Hall _ HEADER)
    by apply lookup_insert_eq.
  cbn [write_rows disk asked]. rewrite insert_insert_eq. reflexivity.
Qed.

(** X14.  When the helper fails on a row, the exception leaves
    [create_markdown_file] and the file keeps what was written: the header
    and the sections of the rows before the failing one.  The prompts of
    those rows and of the failing one were sent; no later row was asked
    for. *)
Theorem create_markdown_file_interrupted df path m done ds bad rest e :
  openable path = true →
  "Project Name" ∈ columns df → "Difficulty" ∈ columns df →
  rows df = (done ++ bad :: rest)%list →
  Forall2 (λ row d, described get_completion row = inr d) done ds →
  described get_completion bad = inl e →
  create_markdown_file get_completion openable df path m
  = (inl e,
     mkMachine (<[path := HEADER +:+ sections done ds]> (disk m))
       (asked m ++ ((prompt_of <$> done) ++ [prompt_of bad]))%list).
Proof.
  intros Hopen Hname Hdifficulty Hrows Hall Hbad. unfold create_markdown_file.
  rewrite Hopen, Hrows. cbv zeta. rewrite header_written.
  rewrite (write_rows_answered df path (bad :: rest) Hname Hdifficulty _ _ Hall _ HEADER)
    by apply lookup_insert_eq.
  cbn [write_rows]. unfold getitem.
  rewrite !bool_decide_eq_true_2 by assumption.
  unfold generate_project_description. unfold described, cell in Hbad.
  rewrite Hbad. unfold prompt_of, cell. cbn [disk asked].
  rewrite insert_insert_eq, <- app_assoc. reflexivity.
Qed.

(** X15.  [create_markdown_file] replaces the file and touches no other:
    every other path keeps its text, the text the file ends with starts with
    the header and does not depend on what the file held before, and the
    prompts sent before are still there, followed by the new ones.  When the
    file cannot be opened nothing is written and nothing is asked. *)
Theorem create_markdown_file_frame df path m :
  let m' := (create_markdown_file get_completion openable df path m).2 in
  (∀ p, p ≠ path → disk m' !! p = disk m !! p)
  ∧ take (length (asked m)) (asked m') = asked m
  ∧ (openable path = false →
     create_markdown_file get_completion openable df path m = (inl (OSError path), m))
  ∧ (openable path = true →
     ∃ body, disk m' !! path = Some (HEADER +:+ body)
       ∧ ∀ m2, disk (create_markdown_file get_completion openable df path m2).2 !! path
               = Some (HEADER +:+ body)).
Proof.
  cbv zeta. unfold create_markdown_file.
  destruct (openable path) eqn:Hopen; cbv zeta.
  - destruct (write_rows_appends df path (rows df)) as (out & body & qs & Hrun).
    assert (Hstart : ∀ m0, disk (mkMachine (<[path := HEADER]> (disk m0)) (asked m0))
                           !! path = Some HEADER)
      by (intros m0; apply lookup_insert_eq).
    rewrite header_written, (Hrun _ _ (Hstart m)). cbn [snd disk asked].
    split; [| split; [| split]].
    + intros p Hp. rewrite !lookup_insert_ne by congruence. reflexivity.
    + apply take_app_length.
    + discriminate.
    + intros _. exists body. split; [apply lookup_insert_eq |].
      intros m2. rewrite header_written, (Hrun _ _ (Hstart m2)).
      apply lookup_insert_eq.
  - cbn [snd]. split; [reflexivity |]. split; [apply firstn_all |].
    split; [reflexivity | discriminate].
Qed.

(** X16.  A sheet without one of the two columns: with at least one row,
    [create_markdown_file] raises [KeyError] for a missing label at the first
    row, after the header was written and before any prompt was sent; with no
    row at all it returns, and the file is the header alone. *)
Theorem create_markdown_file_missing_column df path m :
  openable path = true →
  "Project Name" ∉ columns df ∨ "Difficulty" ∉ columns df →
  ∃ out,
    create_markdown_file get_completion openable df path m
    = (out, mkMachine (<[path := HEADER]> (disk m)) (asked m))
    ∧ (rows df = [] → out = inr tt)
    ∧ (rows df ≠ [] → ∃ label, (label ∉ columns df) ∧ out = inl (KeyError label)).
Proof.
  intros Hopen Hmissing. unfold create_markdown_file. rewrite Hopen. cbv zeta.
  rewrite header_written.
  destruct (rows df) as [| row rest].
  - exists (inr tt). split; [reflexivity |]. split; [reflexivity | intros H; destruct H; reflexivity].
  - cbn [write_rows]. unfold getitem.
    case_bool_decide as Hname.
    + destruct Hmissing as [Hno | Hno]; [contradiction |].
      rewrite bool_decide_eq_false_2 by exact Hno.
      exists (inl (KeyError "Difficulty")). split; [reflexivity |].
      split; [discriminate |]. intros _. exists "Difficulty". split; [exact Hno | reflexivity].
    + exists (inl (KeyError "Project Name")). split; [reflexivity |].
      split; [discriminate |]. intros _. exists "Project Name".
      split; [exact Hname | reflexivity].
Qed.

End Helpers.

Lemma create_markdown_file_written_witness :
  create_markdown_file moody_helper any_path easy_sheet MARKDOWN_FILE_PATH old_disk
  = (inr tt,
     mkMachine
       (<[MARKDOWN_FILE_PATH
          := HEADER +:+ sections (rows easy_sheet) ["A project."; "A project."]]>
          (disk old_disk))
       (asked old_disk ++ (prompt_of <$> rows easy_sheet))).
Proof.
  apply (create_markdown_file_written moody_helper any_path easy_sheet
           MARKDOWN_FILE_PATH old_disk ["A project."; "A project."]).
  - reflexivity.
  - apply (bool_decide_eq_true_1 _). reflexivity.
  - apply (bool_decide_eq_true_1 _). reflexivity.
  - repeat constructor.
Defined.

Lemma create_markdown_file_interrupted_witness :
  create_markdown_file moody_helper any_path project_sheet MARKDOWN_FILE_PATH old_disk
  = (inl (CompletionError "rate limit"),
     mkMachine
       (<[MARKDOWN_FILE_PATH
          := HEADER +:+ sections (rows easy_sheet) ["A project."; "A project."]]>
          (disk old_disk))
       (asked old_disk
        ++ ((prompt_of <$> rows easy_sheet)
            ++ [prompt_of {["Project Name" := "Kafka mesh"; "Difficulty" := "hard"]}]))%list).
Proof.
  apply (create_markdown_file_interrupted moody_helper any_path project_sheet
           MARKDOWN_FILE_PATH old_disk (rows easy_sheet) ["A project."; "A project."]
           {["Project Name" := "Kafka mesh"; "Difficulty" := "hard"]} []
           (CompletionError "rate limit")).
  - reflexivity.
  - apply (bool_decide_eq_true_1 _). reflexivity.
  - apply (bool_decide_eq_true_1 _). reflexivity.
  - reflexivity.
  - repeat constructor.
  - reflexivity.
Defined.

Lemma create_markdown_file_missing_column_witness :
  ∃ out,
    create_markdown_file moody_helper any_path unlabelled_sheet MARKDOWN_FILE_PATH
      old_disk
    = (out, mkMachine (<[MARKDOWN_FILE_PATH := HEADER]> (disk old_disk)) (asked old_disk))
    ∧ (rows unlabelled_sheet = [] → out = inr tt)
    ∧ (rows unlabelled_sheet ≠ [] →
       ∃ label, (label ∉ columns unlabelled_sheet) ∧ out = inl (KeyError label)).
Proof.
  apply (create_markdown_file_missing_column moody_helper any_path unlabelled_sheet
           MARKDOWN_FILE_PATH old_disk).
  - reflexivity.
  - right. apply (bool_decide_eq_false_1 _). reflexivity.
Defined.

End ProjectDescriptionProps.
